(** * Inverse solar-position solver ([SolarMath] of [sunrise_sunset.py])

    The two static methods of [SolarMath] are embedded once, over an
    interface [Arith] that lists the float operations the Python code uses.
    Two instances are given:

    - [binary64]: IEEE-754 double precision (Python's [float]), with the four
      functions of the platform's C library ([sin], [cos], [tan], [atan])
      taken as a parameter;
    - [ideal]: the real numbers, i.e. the arithmetic the formulas are meant
      to approximate.

    Structural properties (which branch is taken, which formula is returned)
    are proved for every instance; properties that bound or compare numeric
    results are proved for [ideal]. *)

From Stdlib Require Import ZArith List Bool Lia Lra.
From Stdlib Require Import Reals.
From Stdlib Require Import Uint63 Floats.

Set Implicit Arguments.

(** ** Calendar dates and clock times *)

(** [datetime.date]: year, month, day. *)
Record date := mkdate { year : Z; month : Z; day : Z }.

(** [datetime.time] restricted to the fields the solver reads. *)
Record time := mktime { hour : Z; minute : Z; second : Z }.

Module Calendar.

(** CPython's [datetime._is_leap]. *)
Definition is_leap (y : Z) : bool :=
  ((y mod 4 =? 0) && (negb (y mod 100 =? 0) || (y mod 400 =? 0)))%Z.

(** CPython's [datetime._DAYS_IN_MONTH] (index 0 is a placeholder). *)
Definition DAYS_IN_MONTH : list Z :=
  (-1 :: 31 :: 28 :: 31 :: 30 :: 31 :: 30 :: 31 :: 31 :: 30 :: 31 :: 30 :: 31 :: nil)%Z.

(** CPython's [datetime._DAYS_BEFORE_MONTH]: running sums of the table. *)
Definition DAYS_BEFORE_MONTH : list Z :=
  (-1 :: 0 :: 31 :: 59 :: 90 :: 120 :: 151 :: 181 :: 212 :: 243 :: 273 :: 304 :: 334 :: nil)%Z.

(** CPython's [datetime._days_in_month]. *)
Definition days_in_month (y m : Z) : Z :=
  if ((m =? 2) && is_leap y)%Z then 29%Z
  else nth (Z.to_nat m) DAYS_IN_MONTH 0%Z.

(** CPython's [datetime._days_before_month]. *)
Definition days_before_month (y m : Z) : Z :=
  (nth (Z.to_nat m) DAYS_BEFORE_MONTH 0 + (if (2 <? m) && is_leap y then 1 else 0))%Z.

(** [date_obj.timetuple().tm_yday]. *)
Definition tm_yday (d : date) : Z :=
  (days_before_month (year d) (month d) + day d)%Z.

(** The dates [datetime.date] can hold. *)
Definition valid_date (d : date) : Prop :=
  (1 <= year d <= 9999 /\ 1 <= month d <= 12 /\
   1 <= day d <= days_in_month (year d) (month d))%Z.

(** The times [datetime.time] can hold. *)
Definition valid_time (t : time) : Prop :=
  (0 <= hour t <= 23 /\ 0 <= minute t <= 59 /\ 0 <= second t <= 59)%Z.

End Calendar.

Export Calendar.

(** ** The arithmetic interface *)

Declare Scope fl_scope.
Delimit Scope fl_scope with fl.

(** The operations on Python floats that [SolarMath] uses. *)
Class Arith (F : Type) : Type := {
  of_int : Z -> F;              (* float(n), also an integer literal *)
  dec : Z -> nat -> F;          (* the decimal literal m * 10^(-k) *)
  pi : F;                       (* math.pi *)
  add : F -> F -> F;
  sub : F -> F -> F;
  mul : F -> F -> F;
  div : F -> F -> F;
  neg : F -> F;
  fabs : F -> F;                (* abs(x) *)
  ltb : F -> F -> bool;         (* x < y *)
  leb : F -> F -> bool;         (* x <= y *)
  m_sin : F -> F;               (* math.sin *)
  m_cos : F -> F;               (* math.cos *)
  m_tan : F -> F;               (* math.tan *)
  m_atan : F -> F               (* math.atan *)
}.

Infix "+" := add : fl_scope.
Infix "-" := sub : fl_scope.
Infix "*" := mul : fl_scope.
Infix "/" := div : fl_scope.
Notation "- x" := (neg x) : fl_scope.
Infix "<?" := ltb : fl_scope.
Infix "<=?" := leb : fl_scope.

(** The one fact about the order that a claim relies on. *)
Class ArithOrder (F : Type) `{Arith F} : Prop := {
  leb_not_ltb : forall x y : F, leb x y = true -> ltb y x = false
}.

(** ** The solver, translated from [class SolarMath] *)

(** The two messages [solve_location] returns next to its result. *)
Inductive message : Type :=
| InvalidDayLength             (* "错误：日落时间必须晚于日出时间" *)
| NearEquinoxLowConfidence.    (* "警告：接近春秋分，纬度计算可能不准确..." *)

Section SolarMath.

Context {F : Type} `{Arith F}.
Local Open Scope fl_scope.

(** CPython's [math.radians]: [x * (pi / 180.0)]. *)
Definition radians (x : F) : F := x * (pi / of_int 180).

(** CPython's [math.degrees]: [x * (180.0 / pi)]. *)
Definition degrees (x : F) : F := x * (of_int 180 / pi).

(** [SolarMath.get_solar_declination_and_eot]: returns [(delta_rad, eot)]. *)
Definition get_solar_declination_and_eot (date_obj : date) : F * F :=
  let day_of_year := tm_yday date_obj in
  let B := (of_int 360 / of_int 365) * of_int (day_of_year - 81) in
  let B_rad := radians B in
  let eot := dec 987 2 * m_sin (of_int 2 * B_rad) - dec 753 2 * m_cos B_rad
             - dec 15 1 * m_sin B_rad in
  let delta_deg := dec 2345 2 * m_sin B_rad in
  let delta_rad := radians delta_deg in
  (delta_rad, eot).

(** Seconds since midnight of a clock time. *)
Definition seconds_of (t : time) : Z :=
  (hour t * 3600 + minute t * 60 + second t)%Z.

(** [SolarMath.solve_location]: returns [(result, message)], where [result]
    is [None] or [(latitude, longitude)].  Division is total here: every
    divisor of the function is a non-zero constant except [tan_delta], which
    the guard of the advisory branch keeps away from zero (lemmas
    [guard_excludes_zero_binary64] and [guard_excludes_zero_ideal]). *)
Definition solve_location (target_date : date) (sunrise_time sunset_time : time)
    (utc_offset : F) : option (F * F) * option message :=
  let sr_seconds := seconds_of sunrise_time in
  let ss_seconds := seconds_of sunset_time in
  let day_length_seconds := (ss_seconds - sr_seconds)%Z in
  if (day_length_seconds <=? 0)%Z then (None, Some InvalidDayLength)
  else
    let local_solar_noon_seconds :=
      of_int sr_seconds + of_int day_length_seconds / of_int 2 in
    let local_solar_noon_min := local_solar_noon_seconds / of_int 60 in
    let '(delta_rad, eot_min) := get_solar_declination_and_eot target_date in
    let utc_noon_min := local_solar_noon_min - utc_offset * of_int 60 in
    let long_offset_min := of_int 720 - utc_noon_min - eot_min in
    let longitude := long_offset_min / of_int 4 in
    let day_length_hours := of_int day_length_seconds / of_int 3600 in
    let omega_deg := (day_length_hours / of_int 2) * of_int 15 in
    let omega_rad := radians omega_deg in
    let tan_delta := m_tan delta_rad in
    if fabs tan_delta <? dec 1 3 then
      (Some (of_int 0, longitude), Some NearEquinoxLowConfidence)
    else
      let tan_phi := - m_cos omega_rad / tan_delta in
      let phi_rad := m_atan tan_phi in
      let latitude := degrees phi_rad in
      (Some (latitude, longitude), None).

End SolarMath.

(** The local [day_length_seconds] of [solve_location], as a function of the
    two clock times. *)
Definition day_length_seconds (sunrise_time sunset_time : time) : Z :=
  (seconds_of sunset_time - seconds_of sunrise_time)%Z.

(** ** The formulas of the specification

    Written from the wording of the specification (sections 4.1 and 4.2), to
    be compared with the translation of the code above. *)

Module Spec.

Record SolarAngles (F : Type) : Type := mkSolarAngles {
  declination : F;        (* radians *)
  equationOfTime : F      (* minutes *)
}.

Section Formulas.

Context {F : Type} `{Arith F}.
Local Open Scope fl_scope.

(** [B_degrees = (360/365) * (dayOfYear - 81)], converted to radians. *)
Definition B (dayOfYear : Z) : F :=
  radians ((of_int 360 / of_int 365) * of_int (dayOfYear - 81)).

(** [computeSolarAngles]: equation of time
    [9.87*sin(2B) - 7.53*cos(B) - 1.5*sin(B)] and declination
    [23.45 * sin(B)] degrees, converted to radians. *)
Definition computeSolarAngles (d : date) : SolarAngles F :=
  let b := B (tm_yday d) in
  {| declination := radians (dec 2345 2 * m_sin b);
     equationOfTime := dec 987 2 * m_sin (of_int 2 * b) - dec 753 2 * m_cos b
                       - dec 15 1 * m_sin b |}.

(** [dayLengthSeconds = sunsetSeconds - sunriseSeconds]. *)
Definition dayLengthSeconds (sunrise sunset : time) : Z :=
  (seconds_of sunset - seconds_of sunrise)%Z.

(** [localSolarNoonMinutes = (sunriseSeconds + dayLengthSeconds/2) / 60]. *)
Definition localSolarNoonMinutes (sunrise sunset : time) : F :=
  (of_int (seconds_of sunrise) + of_int (dayLengthSeconds sunrise sunset) / of_int 2)
  / of_int 60.

(** [longitude = (720 - (localSolarNoonMinutes - utcOffset*60) - eotMinutes) / 4]. *)
Definition longitude (d : date) (sunrise sunset : time) (utcOffset : F) : F :=
  (of_int 720 - (localSolarNoonMinutes sunrise sunset - utcOffset * of_int 60)
   - equationOfTime (computeSolarAngles d)) / of_int 4.

(** [omega]: [((dayLengthSeconds/3600)/2) * 15] degrees, in radians. *)
Definition omega (sunrise sunset : time) : F :=
  radians (((of_int (dayLengthSeconds sunrise sunset) / of_int 3600) / of_int 2)
           * of_int 15).

(** [latitude = atan(-cos(omega) / tan(declination))], in degrees. *)
Definition latitude (d : date) (sunrise sunset : time) : F :=
  degrees (m_atan (- m_cos (omega sunrise sunset)
                   / m_tan (declination (computeSolarAngles d)))).

End Formulas.

End Spec.

(** ** Instance: IEEE-754 binary64 *)

Module Binary64.

(** The C library functions behind [math.sin], [math.cos], [math.tan] and
    [math.atan]; their results depend on the platform. *)
Record libm := {
  c_sin : float -> float;
  c_cos : float -> float;
  c_tan : float -> float;
  c_atan : float -> float
}.

(** Conversion of a Python [int] below [2^63] in magnitude to [float]. *)
Definition float_of_Z (z : Z) : float :=
  if (z <? 0)%Z then PrimFloat.opp (PrimFloat.of_uint63 (Uint63.of_Z (- z)))
  else PrimFloat.of_uint63 (Uint63.of_Z z).

(** A decimal literal: the double nearest to [m / 10^k] (one correctly
    rounded division of two exactly represented integers). *)
Definition float_of_dec (m : Z) (k : nat) : float :=
  PrimFloat.div (float_of_Z m) (float_of_Z (10 ^ Z.of_nat k)).

(** [Py_MATH_PI], the double nearest to pi. *)
Definition float_pi : float := 0x1.921fb54442d18p+1%float.

#[export] Instance binary64 (m : libm) : Arith float := {|
  of_int := float_of_Z;
  dec := float_of_dec;
  pi := float_pi;
  add := PrimFloat.add;
  sub := PrimFloat.sub;
  mul := PrimFloat.mul;
  div := PrimFloat.div;
  neg := PrimFloat.opp;
  fabs := PrimFloat.abs;
  ltb := PrimFloat.ltb;
  leb := PrimFloat.leb;
  m_sin := c_sin m;
  m_cos := c_cos m;
  m_tan := c_tan m;
  m_atan := c_atan m
|}.


End Binary64.

(** ** Instance: real numbers *)

Module Ideal.

Definition Rltb (x y : R) : bool := if Rlt_dec x y then true else false.
Definition Rleb (x y : R) : bool := if Rle_dec x y then true else false.

#[export] Instance ideal : Arith R := {|
  of_int := IZR;
  dec := fun m k => (IZR m / IZR (10 ^ Z.of_nat k))%R;
  pi := PI;
  add := Rplus;
  sub := Rminus;
  mul := Rmult;
  div := Rdiv;
  neg := Ropp;
  fabs := Rabs;
  ltb := Rltb;
  leb := Rleb;
  m_sin := sin;
  m_cos := cos;
  m_tan := tan;
  m_atan := atan
|}.

End Ideal.

(** ** Sample inputs *)

Definition date_2023_03_22 : date := mkdate 2023 3 22.   (* day 81 *)
Definition date_2024_03_21 : date := mkdate 2024 3 21.   (* day 81, leap year *)
Definition date_2023_06_21 : date := mkdate 2023 6 21.   (* day 172 *)
Definition time_06_00_00 : time := mktime 6 0 0.
Definition time_06_30_00 : time := mktime 6 30 0.
Definition time_18_00_00 : time := mktime 18 0 0.
Definition time_18_30_00 : time := mktime 18 30 0.

Definition date_2023_12_21 : date := mkdate 2023 12 21.  (* day 355 *)
Definition time_05_00_00 : time := mktime 5 0 0.
Definition time_07_00_00 : time := mktime 7 0 0.
Definition time_17_00_00 : time := mktime 17 0 0.
Definition time_19_00_00 : time := mktime 19 0 0.

(** ** The caller of [solve_location]

    The main page unpacks the pair returned by [solve_location]: it shows an
    error box when there is a message and no result, and otherwise unpacks
    [lat, lon = result], which raises [TypeError] on [None]. *)

Inductive view (F : Type) : Type :=
| ErrorBox (error_msg : message)                        (* st.error(error_msg) *)
| LocationPanel (lat lon : F) (warning : option message) (* metrics, st.warning *)
| UnpackTypeError.                                      (* lat, lon = None *)

Arguments ErrorBox {F} error_msg.
Arguments LocationPanel {F} lat lon warning.
Arguments UnpackTypeError {F}.

Definition show_result {F : Type} (r : option (F * F) * option message) : view F :=
  let '(result, error_msg) := r in
  match error_msg, result with
  | Some m, None => ErrorBox m
  | _, Some (lat, lon) => LocationPanel lat lon error_msg
  | None, None => UnpackTypeError
  end.

(** ** The forecast table, translated from [calculate_schedule]

    The ephemeris engine, the date arithmetic and the table library are
    outside the repository; they are parameters of the section.  [next_day]
    is total: a run in which [current_date += timedelta(days=1)] passes
    [date.max] raises [OverflowError] and returns no table, so what is
    proved of a returned table, and of a run that an engine exception ends,
    holds of such runs too. *)

(** One dictionary appended to [data]; [D] is the type of the date column. *)
Record row (D instant duration : Type) : Type := mkrow {
  row_date : D;             (* "日期" *)
  rise_utc : instant;       (* "日出UTC" *)
  set_utc : instant;        (* "日落UTC" *)
  day_len : duration        (* "昼长" *)
}.

(** The fields of [ephem.Observer] that [calculate_schedule] assigns. *)
Record Observer (S : Type) : Type := mkObserver {
  obs_lat : S;
  obs_lon : S;
  obs_elevation : Z;
  obs_date : date
}.

Section Schedule.

Variables F S instant duration timestamp exn : Type.
Variable str : F -> S.                               (* str(lat), str(lon) *)
Variable next_rising : Observer S -> instant + exn.  (* observer.next_rising(sun).datetime() *)
Variable next_setting : Observer S -> instant + exn. (* observer.next_setting(sun).datetime() *)
Variable catches : exn -> bool.                      (* the [except] clause matches *)
Variable diff : instant -> instant -> duration.      (* set_utc - rise_utc *)
Variable next_day : date -> date.                    (* current_date + timedelta(days=1) *)
Variable to_datetime : date -> timestamp.            (* pd.to_datetime on the date column *)

(** The body of the [try] block: the row to append, or the exception raised
    by the first engine call that fails. *)
Definition try_body (observer : Observer S) (current_date : date)
    : row date instant duration + exn :=
  match next_rising observer with
  | inr e => inr e
  | inl rise_utc =>
    match next_setting observer with
    | inr e => inr e
    | inl set_utc =>
      let day_len := diff set_utc rise_utc in
      inl (mkrow current_date rise_utc set_utc day_len)
    end
  end.

(** The [for _ in range(days)] loop, with its three variables as state;
    [None] when an exception leaves the loop. *)
Fixpoint schedule_loop (n : nat) (observer : Observer S) (current_date : date)
    (data : list (row date instant duration))
    : option (list (row date instant duration)) :=
  match n with
  | O => Some data
  | Datatypes.S n' =>
    let observer := mkObserver (obs_lat observer) (obs_lon observer)
                               (obs_elevation observer) current_date in
    match try_body observer current_date with
    | inl r => schedule_loop n' observer (next_day current_date) (data ++ r :: nil)
    | inr e =>
      if catches e then schedule_loop n' observer (next_day current_date) data
      else None
    end
  end.

(** [calculate_schedule(lat, lon, start_date, days)]: the table as the list
    of its rows, or [None] when an exception escapes. *)
Definition calculate_schedule (lat lon : F) (start_date : date) (days : Z)
    : option (list (row timestamp instant duration)) :=
  let observer := mkObserver (str lat) (str lon) 0 start_date in
  match schedule_loop (Z.to_nat days) observer start_date nil with
  | None => None
  | Some data =>
    Some match data with
         | nil => nil
         | _ :: _ =>
           map (fun r => mkrow (to_datetime (row_date r)) (rise_utc r) (set_utc r)
                               (day_len r)) data
         end
  end.

(** The dates the loop visits: [start_date], then one day later each time. *)
Fixpoint visited_dates (n : nat) (current_date : date) : list date :=
  match n with
  | O => nil
  | Datatypes.S n' => current_date :: visited_dates n' (next_day current_date)
  end.

(** What one visited date contributes, seen from outside the loop. *)
Definition outcome_on (lat lon : F) (d : date) : row date instant duration + exn :=
  try_body (mkObserver (str lat) (str lon) 0 d) d.

Definition escapes (o : row date instant duration + exn) : bool :=
  match o with
  | inl _ => false
  | inr e => negb (catches e)
  end.

Definition succeeds (o : row date instant duration + exn) : bool :=
  match o with
  | inl _ => true
  | inr _ => false
  end.

Definition rows_of (o : row date instant duration + exn)
    : list (row date instant duration) :=
  match o with
  | inl r => r :: nil
  | inr _ => nil
  end.

Definition convert_row (r : row date instant duration)
    : row timestamp instant duration :=
  mkrow (to_datetime (row_date r)) (rise_utc r) (set_utc r) (day_len r).

End Schedule.

(** The clause [except (ephem.AlwaysUpError, ephem.AlwaysDownError)] of the
    source.  [ephem] defines [AlwaysUpError] and [NeverUpError] but no
    [AlwaysDownError]: evaluating the clause raises [AttributeError] in place
    of the exception being handled, so no exception is caught. *)
Definition except_clause {exn : Type} (e : exn) : bool := false.

(** A small deterministic engine for examples: instants and durations are
    seconds, the sun rises at 06:00 and sets at 18:00 UTC, except that on
    the 22nd of a month it never sets and on the 25th the engine fails. *)
Module TestEngine.

Inductive error : Type := Circumpolar | Failure.

Definition at_time (o : Observer Z) (seconds : Z) : Z + error :=
  if (day (obs_date o) =? 22)%Z then inr Circumpolar
  else if (day (obs_date o) =? 25)%Z then inr Failure
  else inl (day (obs_date o) * 86400 + seconds)%Z.

Definition next_rising (o : Observer Z) : Z + error := at_time o 21600.
Definition next_setting (o : Observer Z) : Z + error := at_time o 64800.

(** The following day, for dates that are not the last of their month. *)
Definition next_day (d : date) : date := mkdate (year d) (month d) (day d + 1).

Definition schedule (lat lon : Z) (start_date : date) (days : Z)
    : option (list (row date Z Z)) :=
  calculate_schedule (fun z : Z => z) next_rising next_setting except_clause
    (fun set_utc rise_utc => (set_utc - rise_utc)%Z) next_day (fun d : date => d)
    lat lon start_date days.

Definition june (d : Z) : date := mkdate 2023 6 d.

(** The row the engine gives on a day of June 2023. *)
Definition test_row (d : Z) : row date Z Z :=
  mkrow (june d) (d * 86400 + 21600)%Z (d * 86400 + 64800)%Z 43200%Z.

End TestEngine.

(** ** Seasons of the model

    [B] is positive and below 180 degrees from day 82 to day 263, and
    outside that arc on the other days of the year except day 81. *)

Definition summer (d : date) : Prop := (82 <= tm_yday d <= 263)%Z.
Definition winter (d : date) : Prop :=
  (1 <= tm_yday d <= 80 \/ 264 <= tm_yday d <= 366)%Z.

(** ** The order law in the two instances *)

Lemma SFcompare_antisym (a b : spec_float) (c : comparison) :
  SFcompare a b = Some c -> SFcompare b a = Some (CompOpp c).
Proof.
  destruct a as [sa|sa| |sa ma ea], b as [sb|sb| |sb mb eb]; simpl;
    try discriminate;
    try (intros E; injection E as <-;
         repeat match goal with s : bool |- _ => destruct s end; reflexivity).
  intros E; injection E as <-. f_equal.
  rewrite (Z.compare_antisym ea eb).
  pose proof (Pos.compare_cont_antisym ma mb Eq) as P; simpl in P.
  rewrite <- P.
  destruct sa, sb; simpl; try reflexivity;
    destruct (ea ?= eb)%Z; simpl; try reflexivity;
    rewrite ?CompOpp_involutive; reflexivity.
Qed.

#[export] Instance binary64_order (m : Binary64.libm) :
  @ArithOrder float (Binary64.binary64 m).
Proof.
  constructor. intros x y. simpl.
  rewrite leb_spec, ltb_spec. unfold SFleb, SFltb.
  destruct (SFcompare (Prim2SF x) (Prim2SF y)) as [c|] eqn:E; [|discriminate].
  rewrite (SFcompare_antisym _ _ E).
  destruct c; simpl; congruence.
Qed.

#[export] Instance ideal_order : @ArithOrder R Ideal.ideal.
Proof.
  constructor. intros x y. simpl. unfold Ideal.Rleb, Ideal.Rltb.
  destruct (Rle_dec x y), (Rlt_dec y x); try reflexivity; try discriminate.
  lra.
Qed.

#[local] Set Warnings "-inexact-float".

Example float_literals :
  (Binary64.float_of_dec 987 2 = 9.87 /\ Binary64.float_of_dec 1 3 = 0.001 /\
   Binary64.float_of_dec 2345 2 = 23.45 /\ Binary64.float_of_dec 753 2 = 7.53 /\
   Binary64.float_of_dec 15 1 = 1.5)%float.
Proof. repeat split; vm_compute; reflexivity. Qed.

(** ** Properties that hold in every arithmetic *)

Section Structure.

Context {F : Type} `{Arith F}.
Local Open Scope fl_scope.

(** C4: for every date and UTC offset, [solve_location] returns the
    [InvalidDayLength] failure exactly when sunset minus sunrise, in seconds,
    is at most zero, and that is the only case in which it produces no
    location. *)
Theorem solve_location_failure_iff (d : date) (sr ss : time) (off : F) :
  (solve_location d sr ss off = (None, Some InvalidDayLength)
     <-> (day_length_seconds sr ss <= 0)%Z) /\
  (fst (solve_location d sr ss off) = None
     <-> (day_length_seconds sr ss <= 0)%Z).
Proof.
  unfold solve_location, day_length_seconds.
  destruct (Z.leb_spec (seconds_of ss - seconds_of sr) 0) as [Hle|Hgt].
  - split; split; auto.
  - destruct (get_solar_declination_and_eot d) as [delta_rad eot_min].
    destruct (fabs (m_tan delta_rad) <? dec 1 3);
      split; split; intros E; try discriminate E; lia.
Qed.

(** C3: for every date, [get_solar_declination_and_eot] returns exactly the
    declination and the equation of time given by the specification's
    formulas for [B], [equationOfTime] and [declination]; being a function of
    the date alone, it is total and has no effect. *)
Theorem get_solar_declination_and_eot_spec (d : date) :
  get_solar_declination_and_eot d
  = (Spec.declination (Spec.computeSolarAngles d),
     Spec.equationOfTime (Spec.computeSolarAngles d)).
Proof. reflexivity. Qed.

(** The two outcomes of [solve_location] on a positive day length. *)
Lemma solve_location_positive (d : date) (sr ss : time) (off : F) :
  (0 < day_length_seconds sr ss)%Z ->
  solve_location d sr ss off =
    if fabs (m_tan (Spec.declination (Spec.computeSolarAngles d))) <? dec 1 3
    then (Some (of_int 0, Spec.longitude d sr ss off), Some NearEquinoxLowConfidence)
    else (Some (Spec.latitude d sr ss, Spec.longitude d sr ss off), None).
Proof.
  unfold solve_location, day_length_seconds. intros Hpos.
  destruct (Z.leb_spec (seconds_of ss - seconds_of sr) 0) as [Hle|_]; [lia|].
  reflexivity.
Qed.

(** C1: on a positive day length, the longitude that [solve_location] returns
    is [(720 - ((sunriseSeconds + dayLengthSeconds/2)/60 - utcOffset*60)
    - eotMinutes) / 4], in the advisory branch and in the normal branch. *)
Theorem solve_location_longitude (d : date) (sr ss : time) (off : F) :
  (0 < day_length_seconds sr ss)%Z ->
  exists lat : F,
    solve_location d sr ss off
      = (Some (lat, Spec.longitude d sr ss off), None) \/
    solve_location d sr ss off
      = (Some (lat, Spec.longitude d sr ss off), Some NearEquinoxLowConfidence).
Proof.
  intros Hpos. rewrite (solve_location_positive d sr ss off Hpos).
  destruct (fabs (m_tan (Spec.declination (Spec.computeSolarAngles d))) <? dec 1 3).
  - exists (of_int 0). right. reflexivity.
  - exists (Spec.latitude d sr ss). left. reflexivity.
Qed.

(** C2: on a positive day length, when [|tan(declination)| >= 0.001],
    [solve_location] returns a location without advisory whose latitude is
    [atan(-cos(omega) / tan(declination))] in degrees. *)
Theorem solve_location_latitude {AO : @ArithOrder F _} (d : date) (sr ss : time) (off : F) :
  (0 < day_length_seconds sr ss)%Z ->
  (dec 1 3 <=? fabs (m_tan (Spec.declination (Spec.computeSolarAngles d)))) = true ->
  solve_location d sr ss off
    = (Some (Spec.latitude d sr ss, Spec.longitude d sr ss off), None).
Proof.
  intros Hpos Hge. rewrite (solve_location_positive d sr ss off Hpos).
  rewrite (leb_not_ltb _ _ Hge). reflexivity.
Qed.

(** C5: on a positive day length, when [|tan(declination)| < 0.001],
    [solve_location] returns latitude [0.0] with the longitude computed as
    usual, together with the [NearEquinoxLowConfidence] advisory. *)
Theorem solve_location_near_equinox (d : date) (sr ss : time) (off : F) :
  (0 < day_length_seconds sr ss)%Z ->
  (fabs (m_tan (Spec.declination (Spec.computeSolarAngles d))) <? dec 1 3) = true ->
  solve_location d sr ss off
    = (Some (of_int 0, Spec.longitude d sr ss off), Some NearEquinoxLowConfidence).
Proof.
  intros Hpos Hlt. rewrite (solve_location_positive d sr ss off Hpos).
  rewrite Hlt. reflexivity.
Qed.

(** C10: two dates with the same day of the year give the same solar angles
    and, with the same sunrise, sunset and UTC offset, the same outcome of
    [solve_location]. *)
Theorem day_of_year_determines_result (d1 d2 : date) :
  tm_yday d1 = tm_yday d2 ->
  get_solar_declination_and_eot d1 = get_solar_declination_and_eot d2 /\
  Spec.computeSolarAngles d1 = Spec.computeSolarAngles d2 /\
  forall (sr ss : time) (off : F),
    solve_location d1 sr ss off = solve_location d2 sr ss off.
Proof.
  intros E.
  assert (A : get_solar_declination_and_eot d1 = get_solar_declination_and_eot d2).
  { unfold get_solar_declination_and_eot. rewrite E. reflexivity. }
  split; [exact A|]. split.
  - unfold Spec.computeSolarAngles. rewrite E. reflexivity.
  - intros sr ss off. unfold solve_location. rewrite A. reflexivity.
Qed.

End Structure.

(** ** The solver in binary64 *)

Module Binary64Results.

Import Binary64.

Lemma SFcompare_zero_r (a : spec_float) :
  SFcompare a (S754_zero false) = Some Eq -> exists s, a = S754_zero s.
Proof.
  destruct a as [s|s| |s m e]; simpl; try discriminate.
  - intros _. exists s. reflexivity.
  - destruct s; discriminate.
  - destruct s; discriminate.
Qed.

(** Where [solve_location] divides by [tan_delta], the divisor is not zero:
    the division cannot raise [ZeroDivisionError]. *)
Lemma guard_excludes_zero_binary64 (t : float) :
  PrimFloat.ltb (PrimFloat.abs t) (float_of_dec 1 3) = false ->
  PrimFloat.eqb t 0%float = false.
Proof.
  rewrite ltb_spec, abs_spec, eqb_spec. unfold SFeqb, SFltb.
  change (Prim2SF 0) with (S754_zero false).
  destruct (SFcompare (Prim2SF t) (S754_zero false)) as [[| |]|] eqn:E;
    try reflexivity.
  destruct (SFcompare_zero_r _ E) as [s ->]. simpl SFabs.
  vm_compute. discriminate.
Qed.

(** A day length that is not positive is rejected, whatever the C library. *)
Example sunset_before_sunrise (m : libm) :
  solve_location (H := binary64 m) date_2023_06_21 time_18_00_00 time_06_00_00 8%float
  = (None, Some InvalidDayLength).
Proof. reflexivity. Qed.

Section EquinoxExample.

Variable m : libm.
Hypothesis sin_zero : c_sin m 0%float = 0%float.
Hypothesis cos_zero : c_cos m 0%float = 1%float.
Hypothesis tan_zero : c_tan m 0%float = 0%float.

(** The example of day 81 evaluated in binary64, for any C library that is
    exact at zero. *)
Example equinox_example_binary64 :
  solve_location (H := binary64 m) date_2023_03_22 time_06_30_00 time_18_30_00 8%float
  = (Some (0%float, 114.3825%float), Some NearEquinoxLowConfidence).
Proof.
  cbv -[c_sin c_cos c_tan c_atan].
  rewrite ?sin_zero, ?cos_zero, ?tan_zero.
  cbv -[c_sin c_cos c_tan c_atan].
  rewrite tan_zero. reflexivity.
Qed.

End EquinoxExample.

End Binary64Results.

(** ** A shift of one minute in binary64 *)

Module Binary64Shift.

Import Binary64.

Section AnyLibrary.

Variable m : libm.
Hypothesis sin_zero : c_sin m 0%float = 0%float.
Hypothesis cos_zero : c_cos m 0%float = 1%float.
Hypothesis tan_zero : c_tan m 0%float = 0%float.


End AnyLibrary.


End Binary64Shift.

(** ** Properties of the numeric results, in real arithmetic *)

Module IdealResults.

Import Ideal.
Local Open Scope R_scope.

(** The formulas of the specification, unfolded over the reals. *)

Lemma B_ideal (doy : Z) :
  Spec.B doy = 360 / 365 * IZR (doy - 81) * (PI / 180).
Proof. reflexivity. Qed.

Lemma equationOfTime_ideal (d : date) :
  Spec.equationOfTime (Spec.computeSolarAngles d)
  = 9.87 * sin (2 * Spec.B (tm_yday d)) - 7.53 * cos (Spec.B (tm_yday d))
    - 1.5 * sin (Spec.B (tm_yday d)).
Proof. reflexivity. Qed.

Lemma declination_ideal (d : date) :
  Spec.declination (Spec.computeSolarAngles d)
  = 23.45 * sin (Spec.B (tm_yday d)) * (PI / 180).
Proof. reflexivity. Qed.

Lemma localSolarNoonMinutes_ideal (sr ss : time) :
  Spec.localSolarNoonMinutes sr ss
  = (IZR (seconds_of sr) + IZR (seconds_of ss)) / 120.
Proof.
  unfold Spec.localSolarNoonMinutes, Spec.dayLengthSeconds. cbn.
  rewrite minus_IZR. field.
Qed.

Lemma longitude_ideal (d : date) (sr ss : time) (off : R) :
  Spec.longitude d sr ss off
  = (720 - (Spec.localSolarNoonMinutes sr ss - off * 60)
     - Spec.equationOfTime (Spec.computeSolarAngles d)) / 4.
Proof. reflexivity. Qed.

Lemma latitude_ideal (d : date) (sr ss : time) :
  Spec.latitude d sr ss
  = atan (- cos (Spec.omega sr ss) / tan (Spec.declination (Spec.computeSolarAngles d)))
    * (180 / PI).
Proof. reflexivity. Qed.

(** Where [solve_location] divides by [tan_delta], the divisor is not
    zero. *)
Lemma guard_excludes_zero_ideal (t : R) :
  (fabs t <? dec 1 3)%fl = false -> t <> 0.
Proof.
  cbn [ltb fabs dec ideal]. unfold Rltb. intros Hg Ht. subst t.
  rewrite Rabs_R0 in Hg.
  destruct (Rlt_dec 0 (1 / IZR (10 ^ Z.of_nat 3))) as [_|N]; [discriminate|].
  apply N. change (10 ^ Z.of_nat 3)%Z with 1000%Z. lra.
Qed.

(** Bounds on the solar angles. *)

Lemma equationOfTime_bound (d : date) :
  -18.9 <= Spec.equationOfTime (Spec.computeSolarAngles d) <= 18.9.
Proof.
  rewrite equationOfTime_ideal.
  pose proof (SIN_bound (2 * Spec.B (tm_yday d))).
  pose proof (SIN_bound (Spec.B (tm_yday d))).
  pose proof (COS_bound (Spec.B (tm_yday d))).
  lra.
Qed.

Lemma declination_bound (d : date) :
  -23.45 * (PI / 180) <= Spec.declination (Spec.computeSolarAngles d)
  <= 23.45 * (PI / 180).
Proof.
  rewrite declination_ideal.
  pose proof (SIN_bound (Spec.B (tm_yday d))) as [Hl Hu].
  pose proof PI_RGT_0 as Hpi.
  assert (0 < PI / 180) by lra.
  split; nra.
Qed.

(** The equinox date of the model: day 81, where [B = 0]. *)

Lemma B_day_81 : Spec.B 81 = 0.
Proof. rewrite B_ideal. simpl. lra. Qed.

Lemma declination_day_81 (d : date) :
  tm_yday d = 81%Z -> Spec.declination (Spec.computeSolarAngles d) = 0.
Proof.
  intros E. rewrite declination_ideal, E, B_day_81, sin_0. lra.
Qed.

Lemma equationOfTime_day_81 (d : date) :
  tm_yday d = 81%Z -> Spec.equationOfTime (Spec.computeSolarAngles d) = -7.53.
Proof.
  intros E. rewrite equationOfTime_ideal, E, B_day_81, Rmult_0_r, sin_0, cos_0. lra.
Qed.

Lemma near_equinox_day_81 (d : date) :
  tm_yday d = 81%Z ->
  (fabs (m_tan (Spec.declination (Spec.computeSolarAngles d))) <? dec 1 3)%fl = true.
Proof.
  intros E. rewrite (declination_day_81 d E). cbn. unfold Rltb.
  rewrite tan_0, Rabs_R0.
  destruct (Rlt_dec 0 (1 / 1000)) as [_|N]; [reflexivity|]. exfalso; lra.
Qed.

(** A date away from the equinox: day 172, where [B] is just below a right
    angle. *)

Lemma sin_double_le (x : R) : 0 <= x <= PI -> sin (2 * x) <= 2 * sin x.
Proof.
  intros [H0 H1]. rewrite sin_2a.
  pose proof (sin_ge_0 x H0 H1). pose proof (COS_bound x). nra.
Qed.

Lemma sin_PI24_lower : 1 / 8 <= sin (PI / 24).
Proof.
  pose proof PI_RGT_0 as Hpi.
  assert (H12 : sin (2 * (PI / 12)) <= 2 * sin (PI / 12))
    by (apply sin_double_le; lra).
  assert (H24 : sin (2 * (PI / 24)) <= 2 * sin (PI / 24))
    by (apply sin_double_le; lra).
  replace (2 * (PI / 12)) with (PI / 6) in H12 by field.
  replace (2 * (PI / 24)) with (PI / 12) in H24 by field.
  rewrite sin_PI6 in H12. lra.
Qed.

Lemma sin_B_day_172 : 1 / 2 <= sin (Spec.B 172) <= 1.
Proof.
  pose proof PI_RGT_0 as Hpi.
  rewrite B_ideal. simpl (172 - 81)%Z.
  split; [|apply SIN_bound].
  rewrite <- sin_PI6. apply sin_incr_1; lra.
Qed.

Lemma tan_declination_day_172 (d : date) :
  tm_yday d = 172%Z ->
  1 / 8 <= tan (Spec.declination (Spec.computeSolarAngles d)).
Proof.
  intros E. pose proof PI_RGT_0 as Hpi.
  rewrite declination_ideal, E.
  destruct sin_B_day_172 as [Hl Hu].
  set (delta := 23.45 * sin (Spec.B 172) * (PI / 180)).
  assert (Hd : PI / 24 <= delta < PI / 2) by (unfold delta; split; nra).
  assert (Hsin : 1 / 8 <= sin delta).
  { apply Rle_trans with (sin (PI / 24)); [exact sin_PI24_lower|].
    apply sin_incr_1; lra. }
  assert (Hcos : 0 < cos delta) by (apply cos_gt_0; lra).
  pose proof (COS_bound delta) as [_ Hc1].
  unfold tan. apply Rle_trans with (sin delta); [exact Hsin|].
  apply (Rmult_le_reg_r (cos delta)); [exact Hcos|].
  unfold Rdiv. rewrite Rmult_assoc, Rinv_l by lra. nra.
Qed.

Lemma away_from_equinox_day_172 (d : date) :
  tm_yday d = 172%Z ->
  (dec 1 3 <=? fabs (m_tan (Spec.declination (Spec.computeSolarAngles d))))%fl = true.
Proof.
  intros E. pose proof (tan_declination_day_172 d E) as Ht.
  cbn [leb fabs m_tan dec ideal]. unfold Rleb.
  destruct (Rle_dec _ _) as [_|N]; [reflexivity|].
  exfalso. apply N. rewrite Rabs_right by lra.
  change (10 ^ Z.of_nat 3)%Z with 1000%Z. lra.
Qed.

(** Ranges of the coordinates. *)

Lemma latitude_range (d : date) (sr ss : time) :
  -90 < Spec.latitude d sr ss < 90.
Proof.
  rewrite latitude_ideal. pose proof PI_RGT_0 as Hpi.
  destruct (atan_bound (- cos (Spec.omega sr ss)
                        / tan (Spec.declination (Spec.computeSolarAngles d))))
    as [Hl Hu].
  assert (Hk : 0 < 180 / PI) by (apply Rdiv_lt_0_compat; lra).
  assert (Hup : PI / 2 * (180 / PI) = 90) by (field; lra).
  assert (Hlo : - PI / 2 * (180 / PI) = -90) by (field; lra).
  split.
  - rewrite <- Hlo. apply Rmult_lt_compat_r; assumption.
  - rewrite <- Hup. apply Rmult_lt_compat_r; assumption.
Qed.

Lemma seconds_of_range (t : time) :
  valid_time t -> (0 <= seconds_of t <= 86399)%Z.
Proof. unfold valid_time, seconds_of. lia. Qed.

Lemma longitude_range (d : date) (sr ss : time) (off : R) :
  valid_time sr -> valid_time ss -> -12 <= off <= 14 ->
  -365 < Spec.longitude d sr ss off < 395.
Proof.
  intros Hsr Hss Hoff.
  apply seconds_of_range in Hsr. apply seconds_of_range in Hss.
  destruct Hsr as [Hsr0 Hsr1], Hss as [Hss0 Hss1].
  apply IZR_le in Hsr0, Hsr1, Hss0, Hss1.
  pose proof (equationOfTime_bound d).
  rewrite longitude_ideal, localSolarNoonMinutes_ideal. lra.
Qed.

(** C9: for every date, the declination lies between -23.45 and +23.45
    degrees (in radians) and the equation of time between -20 and 20
    minutes. *)
Theorem solar_angles_bounds (d : date) :
  radians (-23.45) <= fst (get_solar_declination_and_eot d) <= radians 23.45 /\
  -20 <= snd (get_solar_declination_and_eot d) <= 20.
Proof.
  change (fst (get_solar_declination_and_eot d))
    with (Spec.declination (Spec.computeSolarAngles d)).
  change (snd (get_solar_declination_and_eot d))
    with (Spec.equationOfTime (Spec.computeSolarAngles d)).
  pose proof (declination_bound d). pose proof (equationOfTime_bound d).
  change (radians (-23.45)) with (-23.45 * (PI / 180)).
  change (radians 23.45) with (23.45 * (PI / 180)).
  split; lra.
Qed.

(** C7: on a date with day-of-year 81, sunrise 06:30:00, sunset 18:30:00 and
    UTC offset 8, the day length is 43200 seconds, local solar noon is at 750
    minutes, and [solve_location] returns the [NearEquinoxLowConfidence]
    advisory with latitude 0 and longitude 114.3825, within 6 degrees of
    120. *)
Theorem equinox_example (d : date) :
  tm_yday d = 81%Z ->
  day_length_seconds time_06_30_00 time_18_30_00 = 43200%Z /\
  Spec.localSolarNoonMinutes time_06_30_00 time_18_30_00 = 750 /\
  solve_location d time_06_30_00 time_18_30_00 8
    = (Some (0, 114.3825), Some NearEquinoxLowConfidence) /\
  Rabs (114.3825 - 120) < 6.
Proof.
  intros E. split; [reflexivity|]. split.
  { rewrite localSolarNoonMinutes_ideal. cbn. lra. }
  split.
  - rewrite solve_location_positive by (vm_compute; reflexivity).
    rewrite (near_equinox_day_81 d E). cbn [of_int ideal].
    do 3 f_equal.
    rewrite longitude_ideal, (equationOfTime_day_81 d E),
      localSolarNoonMinutes_ideal.
    cbn. lra.
  - unfold Rabs. destruct (Rcase_abs (114.3825 - 120)); lra.
Qed.

Lemma equinox_example_witness :
  tm_yday date_2023_03_22 = 81%Z /\
  solve_location date_2023_03_22 time_06_30_00 time_18_30_00 8
    = (Some (0, 114.3825), Some NearEquinoxLowConfidence).
Proof.
  split; [reflexivity|].
  apply (equinox_example date_2023_03_22). reflexivity.
Defined.



Lemma valid_sample_times :
  valid_time time_06_00_00 /\ valid_time time_18_00_00 /\
  valid_time time_06_30_00 /\ valid_time time_18_30_00.
Proof. unfold valid_time. cbn. lia. Qed.

Lemma valid_sample_dates :
  valid_date date_2023_03_22 /\ valid_date date_2024_03_21 /\
  valid_date date_2023_06_21.
Proof. unfold valid_date. vm_compute. repeat split; discriminate. Qed.

(** C6, as stated, fails: on 2023-06-21 with sunrise 06:00:00, sunset
    18:00:00 and UTC offset +14 the returned longitude is above 205 degrees,
    outside [-180, 180]. *)
Lemma longitude_outside_180 :
  valid_date date_2023_06_21 /\
  valid_time time_06_00_00 /\ valid_time time_18_00_00 /\
  (0 < day_length_seconds time_06_00_00 time_18_00_00)%Z /\
  -12 <= 14 <= 14 /\
  exists lat lon note,
    solve_location date_2023_06_21 time_06_00_00 time_18_00_00 14
      = (Some (lat, lon), note) /\
    205 < lon /\
    ~ (-90 <= lat <= 90 /\ -180 <= lon <= 180).
Proof.
  split; [apply valid_sample_dates|].
  split; [apply valid_sample_times|]. split; [apply valid_sample_times|].
  split; [reflexivity|]. split; [lra|].
  assert (Hlon : 205 < Spec.longitude date_2023_06_21 time_06_00_00 time_18_00_00 14).
  { pose proof (equationOfTime_bound date_2023_06_21).
    rewrite longitude_ideal, localSolarNoonMinutes_ideal.
    change (seconds_of time_06_00_00) with 21600%Z.
    change (seconds_of time_18_00_00) with 64800%Z. lra. }
  rewrite solve_location_positive by reflexivity.
  destruct (fabs (m_tan (Spec.declination (Spec.computeSolarAngles date_2023_06_21)))
            <? dec 1 3)%fl;
    do 3 eexists; (split; [reflexivity|]); (split; [exact Hlon|]); lra.
Qed.

(** C6, amended: for valid clock times with a positive day length and a UTC
    offset in [-12, 14], [solve_location] returns a location whose latitude
    lies in [-90, 90] and whose longitude lies strictly between -365 and
    395 degrees. *)
Theorem location_ranges (d : date) (sr ss : time) (off : R) :
  valid_time sr -> valid_time ss ->
  (0 < day_length_seconds sr ss)%Z ->
  -12 <= off <= 14 ->
  exists lat lon note,
    solve_location d sr ss off = (Some (lat, lon), note) /\
    -90 <= lat <= 90 /\ -365 < lon < 395.
Proof.
  intros Hsr Hss Hpos Hoff.
  pose proof (longitude_range d Hsr Hss Hoff) as Hlon.
  pose proof (latitude_range d sr ss) as Hlat.
  rewrite (solve_location_positive d sr ss off Hpos).
  destruct (fabs (m_tan (Spec.declination (Spec.computeSolarAngles d))) <? dec 1 3)%fl;
    do 3 eexists; (split; [reflexivity|]); (split; [|exact Hlon]).
  - cbn [of_int ideal]. lra.
  - lra.
Qed.

Lemma location_ranges_witness :
  exists lat lon note,
    solve_location date_2023_06_21 time_06_00_00 time_18_00_00 8
      = (Some (lat, lon), note) /\
    -90 <= lat <= 90 /\ -365 < lon < 395.
Proof.
  apply (location_ranges date_2023_06_21 (sr := time_06_00_00) (ss := time_18_00_00)).
  - unfold valid_time; cbn; lia.
  - unfold valid_time; cbn; lia.
  - reflexivity.
  - lra.
Defined.

(** Instances of the theorems of section [Structure], in real arithmetic. *)

Lemma solve_location_longitude_witness :
  (0 < day_length_seconds time_06_00_00 time_18_00_00)%Z /\
  exists lat : R,
    solve_location date_2023_06_21 time_06_00_00 time_18_00_00 8
      = (Some (lat, Spec.longitude date_2023_06_21 time_06_00_00 time_18_00_00 8), None) \/
    solve_location date_2023_06_21 time_06_00_00 time_18_00_00 8
      = (Some (lat, Spec.longitude date_2023_06_21 time_06_00_00 time_18_00_00 8),
         Some NearEquinoxLowConfidence).
Proof.
  split; [reflexivity|].
  apply (solve_location_longitude date_2023_06_21 time_06_00_00 time_18_00_00 8).
  reflexivity.
Defined.

Lemma solve_location_latitude_witness :
  solve_location date_2023_06_21 time_06_00_00 time_18_00_00 8
    = (Some (Spec.latitude date_2023_06_21 time_06_00_00 time_18_00_00,
             Spec.longitude date_2023_06_21 time_06_00_00 time_18_00_00 8), None).
Proof.
  apply (solve_location_latitude date_2023_06_21 time_06_00_00 time_18_00_00 8).
  - reflexivity.
  - apply away_from_equinox_day_172. reflexivity.
Defined.

Lemma solve_location_near_equinox_witness :
  solve_location date_2023_03_22 time_06_30_00 time_18_30_00 8
    = (Some (0, Spec.longitude date_2023_03_22 time_06_30_00 time_18_30_00 8),
       Some NearEquinoxLowConfidence).
Proof.
  refine (solve_location_near_equinox date_2023_03_22 time_06_30_00 time_18_30_00 8 _ _).
  - reflexivity.
  - apply near_equinox_day_81. reflexivity.
Defined.

Lemma day_of_year_determines_result_witness :
  tm_yday date_2023_03_22 = tm_yday date_2024_03_21 /\
  year date_2023_03_22 <> year date_2024_03_21 /\
  forall (sr ss : time) (off : R),
    solve_location date_2023_03_22 sr ss off = solve_location date_2024_03_21 sr ss off.
Proof.
  split; [reflexivity|]. split; [discriminate|].
  apply (day_of_year_determines_result date_2023_03_22 date_2024_03_21).
  reflexivity.
Defined.

End IdealResults.

(** ** The caller and the invariants of the returned pair *)

Section Caller.

Context {F : Type} `{Arith F}.
Local Open Scope fl_scope.

(** X1: the main page never fails to unpack the result of [solve_location]: it
    shows the error box exactly when the day length is not positive, and
    otherwise the location, with a warning exactly in the advisory branch. *)
Theorem show_result_never_fails (d : date) (sr ss : time) (off : F) :
  show_result (solve_location d sr ss off) <> UnpackTypeError /\
  (show_result (solve_location d sr ss off) = ErrorBox InvalidDayLength
     <-> (day_length_seconds sr ss <= 0)%Z) /\
  ((0 < day_length_seconds sr ss)%Z ->
   exists lat,
     show_result (solve_location d sr ss off)
     = LocationPanel lat (Spec.longitude d sr ss off)
         (if fabs (m_tan (Spec.declination (Spec.computeSolarAngles d))) <? dec 1 3
          then Some NearEquinoxLowConfidence else None)).
Proof.
  destruct (Z.le_gt_cases (day_length_seconds sr ss) 0) as [Hle|Hgt].
  - assert (E : solve_location d sr ss off = (None, Some InvalidDayLength)).
    { unfold solve_location. fold (day_length_seconds sr ss).
      destruct (Z.leb_spec (day_length_seconds sr ss) 0); [reflexivity|lia]. }
    rewrite E. cbn. split; [discriminate|]. split; [tauto|lia].
  - rewrite (solve_location_positive d sr ss off Hgt).
    destruct (fabs (m_tan (Spec.declination (Spec.computeSolarAngles d))) <? dec 1 3);
      cbn; (split; [discriminate|]); (split; [split; [discriminate|lia]|]);
      intros _; eexists; reflexivity.
Qed.

(** X2: the latitude and the message depend on the clock times only through the
    day length, and not on the UTC offset. *)
Theorem latitude_depends_on_day_length
    (d : date) (sr1 ss1 sr2 ss2 : time) (off1 off2 : F) :
  day_length_seconds sr1 ss1 = day_length_seconds sr2 ss2 ->
  option_map fst (fst (solve_location d sr1 ss1 off1))
    = option_map fst (fst (solve_location d sr2 ss2 off2)) /\
  snd (solve_location d sr1 ss1 off1) = snd (solve_location d sr2 ss2 off2).
Proof.
  intros E.
  destruct (Z.le_gt_cases (day_length_seconds sr1 ss1) 0) as [Hle|Hgt].
  - assert (E1 : forall sr ss off, (day_length_seconds sr ss <= 0)%Z ->
               solve_location d sr ss off = (None, Some InvalidDayLength)).
    { intros sr ss off Hl. unfold solve_location. fold (day_length_seconds sr ss).
      destruct (Z.leb_spec (day_length_seconds sr ss) 0); [reflexivity|lia]. }
    rewrite !E1 by lia. split; reflexivity.
  - rewrite !solve_location_positive by lia.
    assert (El : Spec.latitude d sr1 ss1 = Spec.latitude d sr2 ss2).
    { unfold Spec.latitude, Spec.omega, Spec.dayLengthSeconds.
      fold (day_length_seconds sr1 ss1). fold (day_length_seconds sr2 ss2).
      rewrite E. reflexivity. }
    destruct (fabs (m_tan (Spec.declination (Spec.computeSolarAngles d))) <? dec 1 3);
      cbn; rewrite ?El; split; reflexivity.
Qed.

End Caller.

Module Binary64Guard.

Import Binary64.

(** X3: in binary64, with any C library, [solve_location] divides by [tan_delta]
    only when it is not zero. *)
Theorem binary64_division_guard (m : libm) (d : date) (sr ss : time) (off : float) :
  let tan_delta :=
    c_tan m (Spec.declination (Spec.computeSolarAngles (H := binary64 m) d)) in
  solve_location (H := binary64 m) d sr ss off = (None, Some InvalidDayLength) \/
  (exists lon, solve_location (H := binary64 m) d sr ss off
               = (Some (0%float, lon), Some NearEquinoxLowConfidence)) \/
  (PrimFloat.eqb tan_delta 0%float = false /\
   solve_location (H := binary64 m) d sr ss off
   = (Some (Spec.latitude (H := binary64 m) d sr ss,
            Spec.longitude (H := binary64 m) d sr ss off), None)).
Proof.
  intros tan_delta.
  destruct (Z.le_gt_cases (day_length_seconds sr ss) 0) as [Hle|Hgt].
  - left. unfold solve_location. fold (day_length_seconds sr ss).
    destruct (Z.leb_spec (day_length_seconds sr ss) 0); [reflexivity|lia].
  - right. rewrite (solve_location_positive d sr ss off Hgt).
    change (m_tan (Spec.declination (Spec.computeSolarAngles d))) with tan_delta.
    destruct (ltb (fabs tan_delta) (dec 1 3)) eqn:E.
    + left. eexists. reflexivity.
    + right. split; [|reflexivity].
      apply Binary64Results.guard_excludes_zero_binary64. exact E.
Qed.

End Binary64Guard.

(** ** The forecast table *)

Section ScheduleFacts.

Import ListNotations.

Variables F S instant duration timestamp exn : Type.
Variable str : F -> S.
Variable next_rising : Observer S -> instant + exn.
Variable next_setting : Observer S -> instant + exn.
Variable catches : exn -> bool.
Variable diff : instant -> instant -> duration.
Variable next_day : date -> date.
Variable to_datetime : date -> timestamp.

#[local] Abbreviation outcome := (outcome_on str next_rising next_setting diff).
#[local] Abbreviation visited days start_date :=
  (visited_dates next_day (Z.to_nat days) start_date).
#[local] Abbreviation schedule :=
  (calculate_schedule str next_rising next_setting catches diff next_day to_datetime).

Lemma schedule_loop_rows (lat lon : F) (n : nat) :
  forall (observer : Observer S) (current_date : date)
         (data : list (row date instant duration)),
    obs_lat observer = str lat -> obs_lon observer = str lon ->
    obs_elevation observer = 0%Z ->
    schedule_loop next_rising next_setting catches diff next_day
      n observer current_date data
    = if forallb (fun d => negb (escapes catches (outcome lat lon d)))
                 (visited_dates next_day n current_date)
      then Some (data ++ flat_map (fun d => rows_of (outcome lat lon d))
                                  (visited_dates next_day n current_date))
      else None.
Proof.
  induction n as [|n IH]; intros observer current_date data Hlat Hlon Hel.
  - simpl. rewrite app_nil_r. reflexivity.
  - cbn [schedule_loop visited_dates forallb flat_map].
    rewrite Hlat, Hlon, Hel.
    change (try_body next_rising next_setting diff
              (mkObserver (str lat) (str lon) 0 current_date) current_date)
      with (outcome lat lon current_date).
    destruct (outcome lat lon current_date) as [r|e]; cbn [escapes rows_of negb andb].
    + rewrite IH by reflexivity. rewrite <- app_assoc. reflexivity.
    + destruct (catches e); cbn [negb andb].
      * rewrite IH by reflexivity. reflexivity.
      * reflexivity.
Qed.


Lemma outcome_row_date (lat lon : F) (d : date) (r : row date instant duration) :
  outcome lat lon d = inl r ->
  row_date r = d /\ day_len r = diff (set_utc r) (rise_utc r) /\
  next_rising (mkObserver (str lat) (str lon) 0 d) = inl (rise_utc r) /\
  next_setting (mkObserver (str lat) (str lon) 0 d) = inl (set_utc r).
Proof.
  unfold outcome_on, try_body.
  destruct (next_rising _) as [rise|e]; [|discriminate].
  destruct (next_setting _) as [set|e]; [|discriminate].
  intros E. injection E as <-. cbn. repeat split; reflexivity.
Qed.

Lemma rows_dates (lat lon : F) (l : list date) :
  map (@row_date _ _ _) (flat_map (fun d => rows_of (outcome lat lon d)) l)
  = filter (fun d => succeeds (outcome lat lon d)) l.
Proof.
  induction l as [|d l IH]; [reflexivity|].
  cbn [flat_map filter]. rewrite map_app, IH.
  destruct (outcome lat lon d) as [r|e] eqn:E; cbn [rows_of succeeds map app].
  - destruct (outcome_row_date lat lon d E) as [-> _]. reflexivity.
  - reflexivity.
Qed.

Lemma visited_length (n : nat) (d : date) :
  length (visited_dates next_day n d) = n.
Proof.
  revert d. induction n as [|n IH]; intros d; [reflexivity|].
  cbn [visited_dates length]. rewrite IH. reflexivity.
Qed.


End ScheduleFacts.

(** *** The loop with the [except] clause of the source *)

Section ScheduleAsWritten.

Import ListNotations.

Variables F S instant duration timestamp exn : Type.
Variable str : F -> S.
Variable next_rising : Observer S -> instant + exn.
Variable next_setting : Observer S -> instant + exn.
Variable diff : instant -> instant -> duration.
Variable next_day : date -> date.
Variable to_datetime : date -> timestamp.

#[local] Abbreviation outcome := (outcome_on str next_rising next_setting diff).
#[local] Abbreviation visited days start_date :=
  (visited_dates next_day (Z.to_nat days) start_date).

(** With the clause of the source nothing is caught: the loop stops at the
    first date on which an engine call raises. *)
Lemma never_caught_rows (lat lon : F) (start_date : date) (days : Z) :
  calculate_schedule str next_rising next_setting except_clause diff next_day
    to_datetime lat lon start_date days
  = if forallb (fun d => succeeds (outcome lat lon d)) (visited days start_date)
    then Some (map (convert_row to_datetime)
                 (flat_map (fun d => rows_of (outcome lat lon d))
                           (visited days start_date)))
    else None.
Proof.
  unfold calculate_schedule.
  rewrite schedule_loop_rows with (str := str) (lat := lat) (lon := lon)
    by reflexivity.
  assert (E : forall l : list date,
             forallb (fun d => negb (escapes except_clause (outcome lat lon d))) l
             = forallb (fun d => succeeds (outcome lat lon d)) l).
  { intros l. induction l as [|d l IH]; [reflexivity|].
    cbn [forallb]. rewrite IH.
    destruct (outcome lat lon d); reflexivity. }
  rewrite E. destruct (forallb _ _); [|reflexivity].
  cbn [app]. f_equal. destruct (flat_map _ _); reflexivity.
Qed.

Lemma all_succeed_filter (lat lon : F) (l : list date) :
  (forall d, In d l -> succeeds (outcome lat lon d) = true) ->
  filter (fun d => succeeds (outcome lat lon d)) l = l.
Proof.
  induction l as [|d l IH]; intros Hall; [reflexivity|].
  cbn [filter]. rewrite (Hall d (or_introl eq_refl)).
  f_equal. apply IH. intros d' Hd'. apply Hall. right. exact Hd'.
Qed.

(** X4: with the [except] clause as the source has it, a table is returned
    only if both engine calls succeeded on every visited date: no date is
    ever skipped.  The table then has exactly [days] rows, one per visited
    date and in that order, and each row carries the engine's two instants
    for its date and their difference. *)
Theorem calculate_schedule_table (lat lon : F) (start_date : date) (days : Z)
    (t : list (row timestamp instant duration)) :
  calculate_schedule str next_rising next_setting except_clause diff next_day
    to_datetime lat lon start_date days = Some t ->
  (forall d, In d (visited days start_date) ->
             succeeds (outcome lat lon d) = true) /\
  length t = Z.to_nat days /\
  map (@row_date _ _ _) t = map to_datetime (visited days start_date) /\
  Forall (fun r =>
            day_len r = diff (set_utc r) (rise_utc r) /\
            exists d, In d (visited days start_date) /\
              row_date r = to_datetime d /\
              next_rising (mkObserver (str lat) (str lon) 0 d) = inl (rise_utc r) /\
              next_setting (mkObserver (str lat) (str lon) 0 d) = inl (set_utc r)) t.
Proof.
  rewrite never_caught_rows.
  destruct (forallb _ _) eqn:Hall; [|discriminate].
  rewrite forallb_forall in Hall.
  intros E. injection E as <-.
  split; [exact Hall|]. split; [|split].
  - rewrite length_map, <- (length_map (@row_date _ _ _)), rows_dates,
      (all_succeed_filter lat lon _ Hall).
    apply visited_length.
  - rewrite map_map.
    change (fun x => row_date (convert_row to_datetime x))
      with (fun x : row date instant duration => to_datetime (row_date x)).
    rewrite <- map_map, rows_dates, (all_succeed_filter lat lon _ Hall).
    reflexivity.
  - apply Forall_forall. intros r Hr.
    apply in_map_iff in Hr. destruct Hr as (r0 & <- & Hr0).
    apply in_flat_map in Hr0. destruct Hr0 as (d & Hd & Hin).
    destruct (outcome lat lon d) as [r1|e] eqn:E; cbn [rows_of] in Hin;
      [|contradiction].
    destruct Hin as [<-|[]].
    destruct (@outcome_row_date F S instant duration exn str next_rising
                next_setting diff lat lon d r1 E) as (Hdate & Hlen & Hrise & Hset).
    cbn [convert_row day_len set_utc rise_utc row_date].
    split; [exact Hlen|]. exists d. rewrite Hdate. auto.
Qed.

(** X5: with the [except] clause as the source has it, an exception raised
    by [next_rising], or by [next_setting] after [next_rising] succeeded, on
    any visited date leaves [calculate_schedule], whatever the exception: a
    date on which the sun never rises or never sets is not skipped, it ends
    the forecast without a table. *)
Theorem calculate_schedule_aborts (lat lon : F) (start_date : date) (days : Z)
    (d : date) :
  In d (visited days start_date) ->
  succeeds (outcome lat lon d) = false ->
  calculate_schedule str next_rising next_setting except_clause diff next_day
    to_datetime lat lon start_date days = None.
Proof.
  intros Hin Hfail. rewrite never_caught_rows.
  destruct (forallb _ _) eqn:Hall; [|reflexivity].
  rewrite forallb_forall in Hall. rewrite (Hall d Hin) in Hfail. discriminate.
Qed.

End ScheduleAsWritten.

Module ScheduleExamples.

Import ListNotations.
Import TestEngine.

Example schedule_of_three_days :
  schedule 0 0 (june 18) 3 = Some [test_row 18; test_row 19; test_row 20].
Proof. reflexivity. Qed.

Example schedule_stops_at_circumpolar_day :
  schedule 0 0 (june 20) 4 = None.
Proof. reflexivity. Qed.

Lemma calculate_schedule_table_witness :
  schedule 0 0 (june 18) 3 = Some [test_row 18; test_row 19; test_row 20] /\
  length [test_row 18; test_row 19; test_row 20] = Z.to_nat 3 /\
  map (@row_date _ _ _) [test_row 18; test_row 19; test_row 20]
    = visited_dates next_day (Z.to_nat 3) (june 18).
Proof.
  split; [reflexivity|].
  destruct (@calculate_schedule_table Z Z Z Z date error (fun z => z)
              next_rising next_setting (fun s r => (s - r)%Z) next_day
              (fun d => d) 0%Z 0%Z (june 18) 3%Z
              [test_row 18; test_row 19; test_row 20] eq_refl)
    as (_ & Hl & Hd & _).
  split; [exact Hl|]. rewrite Hd. apply map_id.
Defined.

Lemma calculate_schedule_aborts_witness :
  In (june 22) (visited_dates next_day (Z.to_nat 4) (june 20)) /\
  schedule 0 0 (june 20) 4 = None.
Proof.
  split; [simpl; auto|].
  apply (@calculate_schedule_aborts Z Z Z Z date error (fun z => z)
           next_rising next_setting (fun s r => (s - r)%Z) next_day
           (fun d => d) 0%Z 0%Z (june 20) 4%Z (june 22)).
  - simpl. auto.
  - reflexivity.
Defined.


End ScheduleExamples.

(** ** Geometry of the solution, in real arithmetic *)

Module IdealGeometry.

Import Ideal IdealResults.
Local Open Scope R_scope.

Lemma omega_ideal (sr ss : time) :
  Spec.omega sr ss = IZR (day_length_seconds sr ss) * (PI / 86400).
Proof.
  unfold Spec.omega, Spec.dayLengthSeconds, day_length_seconds, radians. cbn.
  field.
Qed.

(** sin is at least [sin a] on [a, PI - a]. *)
Lemma sin_lower_on_arc (a x : R) :
  0 <= a <= PI / 2 -> a <= x <= PI - a -> sin a <= sin x.
Proof.
  intros [Ha0 Ha1] [Hx0 Hx1]. pose proof PI_RGT_0.
  destruct (Rle_dec x (PI / 2)) as [Hle|Hgt].
  - apply sin_incr_1; lra.
  - rewrite <- (sin_PI_x x). apply sin_incr_1; lra.
Qed.

(** Halving: [sin (PI / (6 * 2^n)) >= 1 / 2^(n+1)]. *)
Lemma sin_PI6_halved (n : nat) : 1 / 2 ^ (S n) <= sin (PI / (6 * 2 ^ n)).
Proof.
  pose proof PI_RGT_0 as Hpi.
  induction n as [|n IH].
  - simpl. replace (PI / (6 * 1)) with (PI / 6) by field. rewrite sin_PI6. lra.
  - assert (Hp : 0 < 2 ^ n) by (apply pow_lt; lra).
    assert (Hp1 : 1 <= 2 ^ n) by (apply pow_R1_Rle; lra).
    assert (Hx : 0 <= PI / (6 * 2 ^ S n) <= PI).
    { split.
      - apply Rlt_le, Rdiv_lt_0_compat; [lra|]. simpl. lra.
      - apply Rle_trans with (PI / 1); [|lra].
        unfold Rdiv. apply Rmult_le_compat_l; [lra|].
        apply Rinv_le_contravar; simpl; lra. }
    pose proof (@sin_double_le _ Hx) as Hd.
    replace (2 * (PI / (6 * 2 ^ S n))) with (PI / (6 * 2 ^ n)) in Hd
      by (simpl; field; lra).
    assert (E : 1 / 2 ^ S (S n) = (1 / 2 ^ S n) / 2) by (simpl; field; lra).
    rewrite E. lra.
Qed.

Lemma sin_PI384 : 1 / 128 <= sin (PI / 384).
Proof.
  pose proof (sin_PI6_halved 6) as H. simpl in H.
  replace (PI / (6 * (2 * (2 * (2 * (2 * (2 * (2 * 1)))))))) with (PI / 384)
    in H by field.
  lra.
Qed.

Lemma sin_PI1536 : 1 / 512 <= sin (PI / 1536).
Proof.
  pose proof (sin_PI6_halved 8) as H. simpl in H.
  replace (PI / (6 * (2 * (2 * (2 * (2 * (2 * (2 * (2 * (2 * 1))))))))))
    with (PI / 1536) in H by field.
  lra.
Qed.

Lemma tan_ge_sin (x : R) : 0 <= x < PI / 2 -> sin x <= tan x.
Proof.
  intros [H0 H1]. pose proof PI_RGT_0.
  assert (Hcos : 0 < cos x) by (apply cos_gt_0; lra).
  pose proof (COS_bound x) as [_ Hc1].
  assert (Hs : 0 <= sin x) by (apply sin_ge_0; lra).
  unfold tan. apply (Rmult_le_reg_r (cos x)); [exact Hcos|].
  unfold Rdiv. rewrite Rmult_assoc, Rinv_l by lra. nra.
Qed.

Lemma tan_lower_small (x : R) : PI / 1536 <= x < PI / 2 -> 1 / 512 <= tan x.
Proof.
  intros [H0 H1]. pose proof PI_RGT_0.
  apply Rle_trans with (sin x); [|apply tan_ge_sin; lra].
  apply Rle_trans with (sin (PI / 1536)); [exact sin_PI1536|].
  apply sin_incr_1; lra.
Qed.

Lemma B_as_multiple (doy : Z) : Spec.B doy = IZR (doy - 81) * (2 * (PI / 365)).
Proof. rewrite B_ideal. field. Qed.

Lemma sin_B_summer (doy : Z) :
  (82 <= doy <= 263)%Z -> 1 / 128 <= sin (Spec.B doy).
Proof.
  intros [Hl Hu]. pose proof PI_RGT_0 as Hpi.
  assert (H1 : 1 <= IZR (doy - 81)) by (apply IZR_le; lia).
  assert (H2 : IZR (doy - 81) <= 182) by (apply IZR_le; lia).
  rewrite B_as_multiple.
  apply Rle_trans with (sin (PI / 384)); [exact sin_PI384|].
  apply Rle_trans with (sin (PI / 365)); [apply sin_incr_1; lra|].
  apply sin_lower_on_arc; [lra|]. split; nra.
Qed.

Lemma sin_B_winter (doy : Z) :
  (1 <= doy <= 80 \/ 264 <= doy <= 366)%Z -> sin (Spec.B doy) <= - (1 / 128).
Proof.
  intros Hd. pose proof PI_RGT_0 as Hpi.
  rewrite B_as_multiple.
  assert (Ha : 1 / 128 <= sin (PI / 365)).
  { apply Rle_trans with (sin (PI / 384)); [exact sin_PI384|].
    apply sin_incr_1; lra. }
  destruct Hd as [[Hl Hu]|[Hl Hu]].
  - assert (H1 : -80 <= IZR (doy - 81)) by (apply IZR_le; lia).
    assert (H2 : IZR (doy - 81) <= -1) by (apply IZR_le; lia).
    replace (IZR (doy - 81) * (2 * (PI / 365)))
      with (- (- IZR (doy - 81) * (2 * (PI / 365)))) by ring.
    rewrite sin_neg.
    assert (sin (PI / 365) <= sin (- IZR (doy - 81) * (2 * (PI / 365)))).
    { apply sin_lower_on_arc; [lra|]. split; nra. }
    lra.
  - assert (H1 : 183 <= IZR (doy - 81)) by (apply IZR_le; lia).
    assert (H2 : IZR (doy - 81) <= 285) by (apply IZR_le; lia).
    replace (IZR (doy - 81) * (2 * (PI / 365)))
      with ((IZR (doy - 81) * (2 * (PI / 365)) - PI) + PI) by ring.
    rewrite neg_sin.
    assert (sin (PI / 365) <= sin (IZR (doy - 81) * (2 * (PI / 365)) - PI)).
    { apply sin_lower_on_arc; [lra|]. split; nra. }
    lra.
Qed.

Lemma tan_declination_summer (d : date) :
  (82 <= tm_yday d <= 263)%Z ->
  1 / 512 <= tan (Spec.declination (Spec.computeSolarAngles d)).
Proof.
  intros Hd. pose proof PI_RGT_0 as Hpi.
  pose proof (@sin_B_summer _ Hd) as Hs.
  pose proof (SIN_bound (Spec.B (tm_yday d))) as [_ Hs1].
  rewrite declination_ideal.
  apply tan_lower_small. split; nra.
Qed.

Lemma tan_declination_winter (d : date) :
  (1 <= tm_yday d <= 80 \/ 264 <= tm_yday d <= 366)%Z ->
  tan (Spec.declination (Spec.computeSolarAngles d)) <= - (1 / 512).
Proof.
  intros Hd. pose proof PI_RGT_0 as Hpi.
  pose proof (@sin_B_winter _ Hd) as Hs.
  pose proof (SIN_bound (Spec.B (tm_yday d))) as [Hs1 _].
  rewrite declination_ideal.
  replace (23.45 * sin (Spec.B (tm_yday d)) * (PI / 180))
    with (- (23.45 * (- sin (Spec.B (tm_yday d))) * (PI / 180))) by ring.
  rewrite tan_neg.
  assert (1 / 512 <= tan (23.45 * (- sin (Spec.B (tm_yday d))) * (PI / 180))).
  { apply tan_lower_small. split; nra. }
  lra.
Qed.

Lemma tm_yday_range (d : date) : valid_date d -> (1 <= tm_yday d <= 366)%Z.
Proof.
  unfold valid_date, tm_yday, days_before_month, days_in_month.
  destruct d as [y m dd]. cbn [year month day]. intros (_ & Hm & Hd).
  assert (Hcases : (m = 1 \/ m = 2 \/ m = 3 \/ m = 4 \/ m = 5 \/ m = 6 \/ m = 7 \/
                    m = 8 \/ m = 9 \/ m = 10 \/ m = 11 \/ m = 12)%Z) by lia.
  repeat (destruct Hcases as [-> | Hcases]); try subst m;
    repeat match goal with
           | H : context [Z.to_nat ?k] |- _ =>
               let v := eval vm_compute in (Z.to_nat k) in
               change (Z.to_nat k) with v in H
           | |- context [Z.to_nat ?k] =>
               let v := eval vm_compute in (Z.to_nat k) in
               change (Z.to_nat k) with v
           end;
    destruct (is_leap y);
    cbn [nth DAYS_IN_MONTH DAYS_BEFORE_MONTH andb Z.eqb Z.ltb Z.compare
         Pos.eqb Pos.compare Pos.compare_cont] in Hd |- *; lia.
Qed.

Lemma guard_false (t : R) :
  1 / 512 <= Rabs t -> (fabs t <? dec 1 3)%fl = false.
Proof.
  intros Ht. cbn [ltb fabs dec ideal]. unfold Rltb.
  change (10 ^ Z.of_nat 3)%Z with 1000%Z.
  destruct (Rlt_dec (Rabs t) (1 / 1000)) as [Hlt|_]; [lra|reflexivity].
Qed.

Lemma normal_branch (d : date) (sr ss : time) (off : R) :
  (0 < day_length_seconds sr ss)%Z ->
  1 / 512 <= Rabs (tan (Spec.declination (Spec.computeSolarAngles d))) ->
  solve_location d sr ss off
  = (Some (Spec.latitude d sr ss, Spec.longitude d sr ss off), None).
Proof.
  intros Hpos Ht. rewrite (solve_location_positive d sr ss off Hpos).
  change (m_tan (Spec.declination (Spec.computeSolarAngles d)))
    with (tan (Spec.declination (Spec.computeSolarAngles d))).
  rewrite (@guard_false _ Ht). reflexivity.
Qed.

Lemma away_from_day_81 (d : date) :
  (1 <= tm_yday d <= 366)%Z -> tm_yday d <> 81%Z ->
  1 / 512 <= Rabs (tan (Spec.declination (Spec.computeSolarAngles d))).
Proof.
  intros Hr Hne.
  assert (Hc : (82 <= tm_yday d <= 263 \/
                (1 <= tm_yday d <= 80 \/ 264 <= tm_yday d <= 366))%Z) by lia.
  destruct Hc as [Hs|Hw].
  - pose proof (@tan_declination_summer d Hs). rewrite Rabs_right; lra.
  - pose proof (@tan_declination_winter d Hw). rewrite Rabs_left; lra.
Qed.

(** X7: for a valid date and a positive day length, [solve_location] takes the
    advisory branch exactly on day 81 of the year: on every other day
    [|tan(delta_rad)|] is at least 1/512, above the threshold 0.001. *)
Theorem advisory_only_on_day_81 (d : date) (sr ss : time) (off : R) :
  valid_date d -> (0 < day_length_seconds sr ss)%Z ->
  (snd (solve_location d sr ss off) = Some NearEquinoxLowConfidence
   <-> tm_yday d = 81%Z).
Proof.
  intros Hv Hpos. pose proof (@tm_yday_range d Hv) as Hr.
  destruct (Z.eq_dec (tm_yday d) 81) as [E|Hne].
  - rewrite (solve_location_positive d sr ss off Hpos), (near_equinox_day_81 d E).
    split; auto.
  - rewrite (@normal_branch d sr ss off Hpos (@away_from_day_81 d Hr Hne)).
    split; [discriminate|contradiction].
Qed.

(** X8: for a valid date the declination returned by
    [get_solar_declination_and_eot] is positive from day 82 to day 263, zero
    on day 81 and negative on the other days. *)
Theorem declination_sign_by_season (d : date) :
  valid_date d ->
  (0 < fst (get_solar_declination_and_eot d) <-> (82 <= tm_yday d <= 263)%Z) /\
  (fst (get_solar_declination_and_eot d) = 0 <-> tm_yday d = 81%Z) /\
  (fst (get_solar_declination_and_eot d) < 0
     <-> (1 <= tm_yday d <= 80 \/ 264 <= tm_yday d <= 366)%Z).
Proof.
  intros Hv. pose proof (@tm_yday_range d Hv) as Hr.
  pose proof PI_RGT_0 as Hpi.
  change (fst (get_solar_declination_and_eot d))
    with (Spec.declination (Spec.computeSolarAngles d)).
  rewrite declination_ideal.
  assert (Hc : (82 <= tm_yday d <= 263 \/ tm_yday d = 81 \/
                (1 <= tm_yday d <= 80 \/ 264 <= tm_yday d <= 366))%Z) by lia.
  destruct Hc as [Hs|[He|Hw]].
  - pose proof (@sin_B_summer _ Hs).
    assert (0 < 23.45 * sin (Spec.B (tm_yday d)) * (PI / 180)) by nra.
    repeat split; intros; try lia; try lra.
  - rewrite He, B_day_81, sin_0.
    repeat split; intros; try lia; try lra.
  - pose proof (@sin_B_winter _ Hw).
    assert (23.45 * sin (Spec.B (tm_yday d)) * (PI / 180) < 0) by nra.
    repeat split; intros; try lia; try lra.
Qed.

Lemma omega_range (sr ss : time) :
  valid_time sr -> valid_time ss -> (0 < day_length_seconds sr ss)%Z ->
  0 < Spec.omega sr ss < PI.
Proof.
  intros Hsr Hss Hpos. pose proof PI_RGT_0 as Hpi.
  apply seconds_of_range in Hsr. apply seconds_of_range in Hss.
  rewrite omega_ideal.
  assert (H1 : 1 <= IZR (day_length_seconds sr ss)) by (apply IZR_le; lia).
  assert (H2 : IZR (day_length_seconds sr ss) <= 86399)
    by (apply IZR_le; unfold day_length_seconds; lia).
  split; nra.
Qed.

Lemma scaled_atan_pos (x : R) : 0 < x -> 0 < atan x * (180 / PI).
Proof.
  intros Hx. pose proof PI_RGT_0 as Hpi.
  assert (0 < atan x) by (rewrite <- atan_0; apply atan_increasing; exact Hx).
  apply Rmult_lt_0_compat; [assumption|]. apply Rdiv_lt_0_compat; lra.
Qed.

Lemma scaled_atan_neg (x : R) : x < 0 -> atan x * (180 / PI) < 0.
Proof.
  intros Hx. pose proof PI_RGT_0 as Hpi.
  assert (atan x < 0) by (rewrite <- atan_0; apply atan_increasing; exact Hx).
  assert (0 < 180 / PI) by (apply Rdiv_lt_0_compat; lra).
  nra.
Qed.

Lemma scaled_atan_mono (x y : R) : x < y -> atan x * (180 / PI) < atan y * (180 / PI).
Proof.
  intros Hxy. pose proof PI_RGT_0 as Hpi.
  apply Rmult_lt_compat_r; [apply Rdiv_lt_0_compat; lra|].
  apply atan_increasing; exact Hxy.
Qed.

Lemma div_pos_neg_sign (c t : R) :
  0 < t -> (c < 0 -> 0 < - c / t) /\ (0 < c -> - c / t < 0).
Proof.
  intros Ht. assert (0 < / t) by (apply Rinv_0_lt_compat; exact Ht).
  unfold Rdiv. split; intros; nra.
Qed.

Lemma latitude_sign_long_day (d : date) (sr ss : time) :
  valid_time sr -> valid_time ss ->
  (43200 < day_length_seconds sr ss)%Z ->
  let t := tan (Spec.declination (Spec.computeSolarAngles d)) in
  (0 < t -> 0 < Spec.latitude d sr ss) /\ (t < 0 -> Spec.latitude d sr ss < 0).
Proof.
  intros Hsr Hss Hlong t. pose proof PI_RGT_0 as Hpi.
  assert (Hpos : (0 < day_length_seconds sr ss)%Z) by lia.
  destruct (omega_range Hsr Hss Hpos) as [_ Hw1].
  assert (Hw0 : PI / 2 < Spec.omega sr ss).
  { rewrite omega_ideal.
    assert (43201 <= IZR (day_length_seconds sr ss)) by (apply IZR_le; lia).
    nra. }
  assert (Hc : cos (Spec.omega sr ss) < 0) by (apply cos_lt_0; lra).
  rewrite latitude_ideal. fold t.
  split; intros Ht.
  - apply scaled_atan_pos. apply (div_pos_neg_sign (cos (Spec.omega sr ss)) Ht); exact Hc.
  - apply scaled_atan_neg.
    replace (- cos (Spec.omega sr ss) / t)
      with (- (- cos (Spec.omega sr ss) / - t)) by (field; lra).
    assert (0 < - cos (Spec.omega sr ss) / - t).
    { apply (div_pos_neg_sign (cos (Spec.omega sr ss))); lra. }
    lra.
Qed.

Lemma latitude_sign_short_day (d : date) (sr ss : time) :
  valid_time sr -> valid_time ss ->
  (0 < day_length_seconds sr ss < 43200)%Z ->
  let t := tan (Spec.declination (Spec.computeSolarAngles d)) in
  (0 < t -> Spec.latitude d sr ss < 0) /\ (t < 0 -> 0 < Spec.latitude d sr ss).
Proof.
  intros Hsr Hss [Hpos Hshort] t. pose proof PI_RGT_0 as Hpi.
  destruct (omega_range Hsr Hss Hpos) as [Hw0 _].
  assert (Hw1 : Spec.omega sr ss < PI / 2).
  { rewrite omega_ideal.
    assert (IZR (day_length_seconds sr ss) <= 43199) by (apply IZR_le; lia).
    assert (1 <= IZR (day_length_seconds sr ss)) by (apply IZR_le; lia).
    nra. }
  assert (Hc : 0 < cos (Spec.omega sr ss)) by (apply cos_gt_0; lra).
  rewrite latitude_ideal. fold t.
  split; intros Ht.
  - apply scaled_atan_neg. apply (div_pos_neg_sign (cos (Spec.omega sr ss)) Ht); exact Hc.
  - apply scaled_atan_pos.
    replace (- cos (Spec.omega sr ss) / t)
      with (- (- cos (Spec.omega sr ss) / - t)) by (field; lra).
    assert (- cos (Spec.omega sr ss) / - t < 0).
    { apply (div_pos_neg_sign (cos (Spec.omega sr ss))); lra. }
    lra.
Qed.

Lemma latitude_mono (d : date) (sr1 ss1 sr2 ss2 : time) :
  valid_time sr1 -> valid_time ss1 -> valid_time sr2 -> valid_time ss2 ->
  (0 < day_length_seconds sr1 ss1 < day_length_seconds sr2 ss2)%Z ->
  let t := tan (Spec.declination (Spec.computeSolarAngles d)) in
  (0 < t -> Spec.latitude d sr1 ss1 < Spec.latitude d sr2 ss2) /\
  (t < 0 -> Spec.latitude d sr2 ss2 < Spec.latitude d sr1 ss1).
Proof.
  intros Hsr1 Hss1 Hsr2 Hss2 [Hpos Hlt] t. pose proof PI_RGT_0 as Hpi.
  assert (Hpos2 : (0 < day_length_seconds sr2 ss2)%Z) by lia.
  destruct (omega_range Hsr1 Hss1 Hpos) as [Ha0 Ha1].
  destruct (omega_range Hsr2 Hss2 Hpos2) as [Hb0 Hb1].
  assert (Hw : Spec.omega sr1 ss1 < Spec.omega sr2 ss2).
  { rewrite !omega_ideal.
    assert (IZR (day_length_seconds sr1 ss1) < IZR (day_length_seconds sr2 ss2))
      by (apply IZR_lt; lia).
    nra. }
  assert (Hc : cos (Spec.omega sr2 ss2) < cos (Spec.omega sr1 ss1))
    by (apply cos_decreasing_1; lra).
  rewrite !latitude_ideal. fold t.
  split; intros Ht; apply scaled_atan_mono.
  - assert (0 < / t) by (apply Rinv_0_lt_compat; exact Ht). unfold Rdiv. nra.
  - assert (/ t < 0) by (apply Rinv_lt_0_compat; exact Ht). unfold Rdiv. nra.
Qed.

Lemma summer_branch (d : date) (sr ss : time) (off : R) :
  summer d -> (0 < day_length_seconds sr ss)%Z ->
  0 < tan (Spec.declination (Spec.computeSolarAngles d)) /\
  solve_location d sr ss off
  = (Some (Spec.latitude d sr ss, Spec.longitude d sr ss off), None).
Proof.
  intros Hs Hpos. pose proof (@tan_declination_summer d Hs) as Ht.
  split; [lra|]. apply normal_branch; [exact Hpos|]. rewrite Rabs_right; lra.
Qed.

Lemma winter_branch (d : date) (sr ss : time) (off : R) :
  winter d -> (0 < day_length_seconds sr ss)%Z ->
  tan (Spec.declination (Spec.computeSolarAngles d)) < 0 /\
  solve_location d sr ss off
  = (Some (Spec.latitude d sr ss, Spec.longitude d sr ss off), None).
Proof.
  intros Hw Hpos. pose proof (@tan_declination_winter d Hw) as Ht.
  split; [lra|]. apply normal_branch; [exact Hpos|]. rewrite Rabs_left; lra.
Qed.

(** X9: the sign of the latitude: from day 82 to day 263 a day longer than 12
    hours gives a positive latitude and a shorter one a negative latitude;
    on the other days except day 81 it is the reverse.  No advisory is
    returned in either case. *)
Theorem latitude_hemisphere (d : date) (sr ss : time) (off : R) :
  valid_time sr -> valid_time ss -> (0 < day_length_seconds sr ss)%Z ->
  (summer d ->
   exists lat lon,
     solve_location d sr ss off = (Some (lat, lon), None) /\
     ((43200 < day_length_seconds sr ss)%Z -> 0 < lat) /\
     ((day_length_seconds sr ss < 43200)%Z -> lat < 0)) /\
  (winter d ->
   exists lat lon,
     solve_location d sr ss off = (Some (lat, lon), None) /\
     ((43200 < day_length_seconds sr ss)%Z -> lat < 0) /\
     ((day_length_seconds sr ss < 43200)%Z -> 0 < lat)).
Proof.
  intros Hsr Hss Hpos. split; intros Hseason.
  - destruct (@summer_branch d sr ss off Hseason Hpos) as [Ht ->].
    do 2 eexists. split; [reflexivity|]. split; intros Hl.
    + apply (@latitude_sign_long_day d sr ss Hsr Hss Hl). exact Ht.
    + apply (@latitude_sign_short_day d sr ss Hsr Hss (conj Hpos Hl)). exact Ht.
  - destruct (@winter_branch d sr ss off Hseason Hpos) as [Ht ->].
    do 2 eexists. split; [reflexivity|]. split; intros Hl.
    + apply (@latitude_sign_long_day d sr ss Hsr Hss Hl). exact Ht.
    + apply (@latitude_sign_short_day d sr ss Hsr Hss (conj Hpos Hl)). exact Ht.
Qed.

(** X10: from day 82 to day 263 the latitude grows strictly with the day length;
    on the other days except day 81 it falls strictly. *)
Theorem latitude_increases_with_day_length
    (d : date) (sr1 ss1 sr2 ss2 : time) (off1 off2 : R) :
  valid_time sr1 -> valid_time ss1 -> valid_time sr2 -> valid_time ss2 ->
  (0 < day_length_seconds sr1 ss1 < day_length_seconds sr2 ss2)%Z ->
  (summer d ->
   exists lat1 lon1 lat2 lon2,
     solve_location d sr1 ss1 off1 = (Some (lat1, lon1), None) /\
     solve_location d sr2 ss2 off2 = (Some (lat2, lon2), None) /\ lat1 < lat2) /\
  (winter d ->
   exists lat1 lon1 lat2 lon2,
     solve_location d sr1 ss1 off1 = (Some (lat1, lon1), None) /\
     solve_location d sr2 ss2 off2 = (Some (lat2, lon2), None) /\ lat2 < lat1).
Proof.
  intros Hsr1 Hss1 Hsr2 Hss2 Hdl.
  assert (Hpos1 : (0 < day_length_seconds sr1 ss1)%Z) by lia.
  assert (Hpos2 : (0 < day_length_seconds sr2 ss2)%Z) by lia.
  pose proof (@latitude_mono d sr1 ss1 sr2 ss2 Hsr1 Hss1 Hsr2 Hss2 Hdl) as [Hup Hdown].
  split; intros Hseason.
  - destruct (@summer_branch d sr1 ss1 off1 Hseason Hpos1) as [Ht ->].
    destruct (@summer_branch d sr2 ss2 off2 Hseason Hpos2) as [_ ->].
    do 4 eexists. split; [reflexivity|]. split; [reflexivity|]. exact (Hup Ht).
  - destruct (@winter_branch d sr1 ss1 off1 Hseason Hpos1) as [Ht ->].
    destruct (@winter_branch d sr2 ss2 off2 Hseason Hpos2) as [_ ->].
    do 4 eexists. split; [reflexivity|]. split; [reflexivity|]. exact (Hdown Ht).
Qed.

(** X13: the longitude depends on the two clock times only through their sum:
    two observations on the same date with the same offset whose sunrise and
    sunset have the same midpoint give the same longitude. *)
Theorem longitude_depends_on_midpoint
    (d : date) (sr1 ss1 sr2 ss2 : time) (off : R) :
  (0 < day_length_seconds sr1 ss1)%Z -> (0 < day_length_seconds sr2 ss2)%Z ->
  (seconds_of sr1 + seconds_of ss1 = seconds_of sr2 + seconds_of ss2)%Z ->
  exists lat1 lat2 lon note,
    solve_location d sr1 ss1 off = (Some (lat1, lon), note) /\
    solve_location d sr2 ss2 off = (Some (lat2, lon), note).
Proof.
  intros Hpos1 Hpos2 Hmid. rewrite !solve_location_positive by assumption.
  assert (E : Spec.longitude d sr2 ss2 off = Spec.longitude d sr1 ss1 off).
  { rewrite !longitude_ideal, !localSolarNoonMinutes_ideal.
    rewrite <- !plus_IZR, Hmid. reflexivity. }
  rewrite E.
  destruct (fabs (m_tan (Spec.declination (Spec.computeSolarAngles d))) <? dec 1 3)%fl;
    do 4 eexists; split; reflexivity.
Qed.

Lemma advisory_only_on_day_81_witness :
  snd (solve_location date_2023_03_22 time_06_30_00 time_18_30_00 8)
    = Some NearEquinoxLowConfidence
  <-> tm_yday date_2023_03_22 = 81%Z.
Proof.
  apply (@advisory_only_on_day_81 date_2023_03_22 time_06_30_00 time_18_30_00 8).
  - apply valid_sample_dates.
  - reflexivity.
Defined.

Lemma valid_more_dates : valid_date date_2023_12_21.
Proof. unfold valid_date. vm_compute. repeat split; discriminate. Qed.

Lemma valid_more_times :
  valid_time time_05_00_00 /\ valid_time time_07_00_00 /\
  valid_time time_17_00_00 /\ valid_time time_19_00_00.
Proof. unfold valid_time. cbn. lia. Qed.

Lemma declination_sign_by_season_witness :
  0 < fst (get_solar_declination_and_eot date_2023_06_21) /\
  fst (get_solar_declination_and_eot date_2023_12_21) < 0.
Proof.
  split.
  - apply (@declination_sign_by_season date_2023_06_21).
    + apply valid_sample_dates.
    + vm_compute. split; discriminate.
  - apply (@declination_sign_by_season date_2023_12_21).
    + apply valid_more_dates.
    + right. vm_compute. split; discriminate.
Defined.

Lemma latitude_hemisphere_witness :
  exists lat lon,
    solve_location date_2023_06_21 time_05_00_00 time_19_00_00 8
      = (Some (lat, lon), None) /\ 0 < lat.
Proof.
  destruct (@latitude_hemisphere date_2023_06_21 time_05_00_00 time_19_00_00 8)
    as [Hsummer _].
  - apply valid_more_times.
  - apply valid_more_times.
  - reflexivity.
  - destruct Hsummer as (lat & lon & E & Hlong & _).
    + unfold summer. vm_compute. split; discriminate.
    + exists lat, lon. split; [exact E|]. apply Hlong. reflexivity.
Defined.

Lemma latitude_increases_with_day_length_witness :
  exists lat1 lon1 lat2 lon2,
    solve_location date_2023_06_21 time_06_00_00 time_18_00_00 8
      = (Some (lat1, lon1), None) /\
    solve_location date_2023_06_21 time_05_00_00 time_19_00_00 8
      = (Some (lat2, lon2), None) /\ lat1 < lat2.
Proof.
  destruct (@latitude_increases_with_day_length date_2023_06_21
              time_06_00_00 time_18_00_00 time_05_00_00 time_19_00_00 8 8)
    as [Hsummer _].
  - apply valid_sample_times.
  - apply valid_sample_times.
  - apply valid_more_times.
  - apply valid_more_times.
  - vm_compute. split; reflexivity.
  - apply Hsummer. unfold summer. vm_compute. split; discriminate.
Defined.

Lemma longitude_depends_on_midpoint_witness :
  exists lat1 lat2 lon note,
    solve_location date_2023_06_21 time_06_00_00 time_18_00_00 8
      = (Some (lat1, lon), note) /\
    solve_location date_2023_06_21 time_05_00_00 time_19_00_00 8
      = (Some (lat2, lon), note).
Proof.
  apply (@longitude_depends_on_midpoint date_2023_06_21
           time_06_00_00 time_18_00_00 time_05_00_00 time_19_00_00 8);
    reflexivity.
Defined.

Lemma latitude_depends_on_day_length_witness :
  option_map fst (fst (solve_location date_2023_06_21 time_06_00_00 time_18_00_00 8))
    = option_map fst (fst (solve_location date_2023_06_21 time_06_30_00 time_18_30_00 0)) /\
  snd (solve_location date_2023_06_21 time_06_00_00 time_18_00_00 8)
    = snd (solve_location date_2023_06_21 time_06_30_00 time_18_30_00 0).
Proof.
  apply (@latitude_depends_on_day_length R ideal date_2023_06_21
           time_06_00_00 time_18_00_00 time_06_30_00 time_18_30_00 8 0).
  reflexivity.
Defined.

End IdealGeometry.
